(** * Faculty feedback backend: a shallow embedding of [app.py]

    The Flask application is a set of request handlers over a MySQL
    database.  Each handler is embedded as a computation in a small
    state-and-exception monad:

    - the reader part holds the incoming request and the outcomes the
      external collaborators (MySQL driver, werkzeug password primitives)
      give to the calls the handler makes;
    - the state part holds the Flask session, the log of driver calls made
      so far, and the result sets waiting on the open cursor;
    - the result is either a raised Python exception or a value.

    Driver model: [cursor()] on a live connection and the two [close()]
    calls do not raise; [connect], [execute], [callproc], [commit] and the
    password primitives raise whenever the environment says so. *)

From stdpp Require Import base option list gmap strings sorting.
From Stdlib Require Import ZArith Permutation.

Set Warnings "-register-all".
Open Scope string_scope.
Open Scope list_scope.
Open Scope Z_scope.

(** ** Python values *)

Inductive value : Type :=
| VNone
| VBool (b : bool)
| VInt (z : Z)
| VStr (s : string)
| VList (l : list value)
| VDict (d : gmap string value).

Abbreviation row := (gmap string value).

(** Python truth value testing ([if x], [not x], [x and y]). *)
Definition truthy (v : value) : bool :=
  match v with
  | VNone => false
  | VBool b => b
  | VInt z => negb (z =? 0)
  | VStr s => negb (String.eqb s "")
  | VList l => negb (Nat.eqb (length l) 0)
  | VDict d => negb (Nat.eqb (size d) 0)
  end.

Definition type_name (v : value) : string :=
  match v with
  | VNone => "NoneType"
  | VBool _ => "bool"
  | VInt _ => "int"
  | VStr _ => "str"
  | VList _ => "list"
  | VDict _ => "dict"
  end.

(** ** Exceptions *)

Inductive exn : Type :=
| MySQLError (errno : Z) (text : string)   (* mysql.connector.Error *)
| AttributeError (text : string)
| KeyError (key : string)
| TypeError (text : string)
| OtherError (text : string).

(** [str(e)] *)
Definition str (e : exn) : string :=
  match e with
  | MySQLError _ text => text
  | AttributeError text => text
  | KeyError key => "'" +:+ key +:+ "'"
  | TypeError text => text
  | OtherError text => text
  end.

Definition no_attribute (v : value) (attr : string) : exn :=
  AttributeError ("'" +:+ type_name v +:+ "' object has no attribute '" +:+ attr +:+ "'").

(** ** Requests, responses, driver calls *)

Record request : Type := {
  json : value;                 (* request.json *)
  args : gmap string string;    (* request.args *)
  view_arg : Z                  (* the <int:...> path parameter, when the route has one *)
}.

Inductive payload : Type :=
| Json (v : value)
| Text (s : string).

Record response : Type := {
  status : Z;
  body : payload
}.

Inductive connection : Type := Connection.
Inductive cursor : Type := Cursor (dictionary : bool).

Inductive event : Type :=
| EConnect
| EPrint (line : string)
| ECursor
| EExecute (sql : string) (params : list value)
| ECallproc (proc_name : string) (params : list value)
| ECommit
| ECursorClose
| EConnClose.

(** What the world outside the process answers. *)
Record env : Type := {
  connect : exn + connection;
  execute : string → list value → exn + list row;
  callproc : string → list value → exn + list (list row);
  commit : exn + unit;
  generate_password_hash : value → exn + string;
  check_password_hash : value → value → exn + bool
}.

Record ctx : Type := {
  req : request;
  world : env
}.

Record state : Type := {
  session : gmap string value;
  log : list event;
  pending : list row;            (* rows of the last statement, not yet fetched *)
  stored : list (list row)       (* result sets left by the last procedure call *)
}.

Definition init (sess : gmap string value) : state :=
  {| session := sess; log := []; pending := []; stored := [] |}.

(** ** The monad *)

Definition M (A : Type) : Type := ctx → state → (exn + A) * state.

#[global] Instance M_ret : MRet M := λ A a _ s, (inr a, s).

#[global] Instance M_bind : MBind M := λ A B f m c s,
  match m c s with
  | (inr a, s') => f a c s'
  | (inl e, s') => (inl e, s')
  end.

Definition raise {A} (e : exn) : M A := λ _ s, (inl e, s).

Definition lift {A} (r : exn + A) : M A := λ _ s, (r, s).

Definition ask : M ctx := λ c s, (inr c, s).

Definition emit (ev : event) : M unit := λ _ s,
  (inr (), {| session := session s; log := log s ++ [ev];
              pending := pending s; stored := stored s |}).

(** [try: body  finally: fin] *)
Definition try_finally {A} (body : M A) (fin : M unit) : M A := λ c s,
  match body c s with
  | (r, s1) =>
      match fin c s1 with
      | (inr _, s2) => (r, s2)
      | (inl e, s2) => (inl e, s2)
      end
  end.

(** [try: body  except Exception as e: handler e] *)
Definition try_except {A} (body : M A) (handler : exn → M A) : M A := λ c s,
  match body c s with
  | (inr a, s1) => (inr a, s1)
  | (inl e, s1) => handler e c s1
  end.

(** ** Flask primitives *)

Definition request_json : M value := c ← ask; mret (json (req c)).

Definition request_args_get (k : string) : M value :=
  c ← ask; mret (from_option VStr VNone (args (req c) !! k)).

Definition request_view_arg : M Z := c ← ask; mret (view_arg (req c)).

Definition session_get (k : string) : M value := λ _ s,
  (inr (default VNone (session s !! k)), s).

Definition session_set (k : string) (v : value) : M unit := λ _ s,
  (inr (), {| session := <[k := v]> (session s); log := log s;
              pending := pending s; stored := stored s |}).

Definition jsonify (v : value) : response := {| status := 200; body := Json v |}.

Definition with_status (r : response) (code : Z) : response :=
  {| status := code; body := body r |}.

(** [o.get(k)] *)
Definition py_get (o : value) (k : string) : M value :=
  match o with
  | VDict d => mret (default VNone (d !! k))
  | _ => raise (no_attribute o "get")
  end.

(** [o[k]] *)
Definition py_item (o : value) (k : string) : M value :=
  match o with
  | VDict d =>
      match d !! k with
      | Some v => mret v
      | None => raise (KeyError k)
      end
  | _ => raise (TypeError ("'" +:+ type_name o +:+ "' object is not subscriptable"))
  end.

Definition dict (kvs : list (string * value)) : value := VDict (list_to_map kvs).

(** ** MySQL driver primitives *)

Definition ER_ACCESS_DENIED_ERROR : Z := 1045.
Definition ER_BAD_DB_ERROR : Z := 1049.

Definition mysql_connect : M connection :=
  emit EConnect;; c ← ask; lift (connect (world c)).

Definition print (line : string) : M unit := emit (EPrint line).

Definition conn_cursor (conn : option connection) (dictionary : bool) : M cursor :=
  match conn with
  | Some _ => emit ECursor;; mret (Cursor dictionary)
  | None => raise (no_attribute VNone "cursor")
  end.

Definition set_pending (rows : list row) : M unit := λ _ s,
  (inr (), {| session := session s; log := log s; pending := rows; stored := stored s |}).

Definition set_stored (sets : list (list row)) : M unit := λ _ s,
  (inr (), {| session := session s; log := log s; pending := pending s; stored := sets |}).

Definition cursor_execute (cur : cursor) (sql : string) (params : list value) : M unit :=
  emit (EExecute sql params);;
  c ← ask;
  rows ← lift (execute (world c) sql params);
  set_pending rows.

Definition cursor_fetchone (cur : cursor) : M value := λ _ s,
  match pending s with
  | [] => (inr VNone, s)
  | r :: rest =>
      (inr (VDict r), {| session := session s; log := log s;
                         pending := rest; stored := stored s |})
  end.

Definition cursor_fetchall (cur : cursor) : M value := λ _ s,
  (inr (VList (VDict <$> pending s)),
   {| session := session s; log := log s; pending := []; stored := stored s |}).

Definition cursor_callproc (cur : cursor) (proc_name : string) (params : list value)
  : M unit :=
  emit (ECallproc proc_name params);;
  c ← ask;
  sets ← lift (callproc (world c) proc_name params);
  set_stored sets.

Definition cursor_stored_results (cur : cursor) : M (list (list row)) := λ _ s,
  (inr (stored s), s).

Definition conn_commit (conn : option connection) : M unit :=
  match conn with
  | Some _ => emit ECommit;; c ← ask; lift (commit (world c))
  | None => raise (no_attribute VNone "commit")
  end.

Definition cursor_close (cur : cursor) : M unit := emit ECursorClose.

Definition conn_close (conn : option connection) : M unit :=
  match conn with
  | Some _ => emit EConnClose
  | None => raise (no_attribute VNone "close")
  end.

(** Truth value of what [get_db_connection] returned: a connection object
    is truthy, [None] is not. *)
Definition is_live (conn : option connection) : bool :=
  match conn with
  | Some _ => true
  | None => false
  end.

(** ** Database utilities *)

Definition get_db_connection : M (option connection) :=
  try_except (conn ← mysql_connect; mret (Some conn))
    (λ err,
       match err with
       | MySQLError errno _ =>
           (if errno =? ER_ACCESS_DENIED_ERROR then print "DB user/password error"
            else if errno =? ER_BAD_DB_ERROR then print "Database does not exist"
            else print (str err));;
           mret None
       | _ => raise err
       end).

Definition call_stored_procedure (proc_name : string) (params : list value) : M value :=
  conn ← get_db_connection;
  cur ← conn_cursor conn true;
  try_finally
    (cursor_callproc cur proc_name params;;
     conn_commit conn;;
     sets ← cursor_stored_results cur;
     mret (foldl (λ _ res, VList (VDict <$> res)) VNone sets))
    (cursor_close cur;; conn_close conn).

(** ** SQL text, as written in the handlers *)

Definition sql_insert_student : string :=
  "
            INSERT INTO students (first_name, email, password_hash, roll_number, branch_id, year_id, semester_id)
            VALUES (%s,%s,%s,%s,%s,%s,%s)
        ".

Definition sql_select_student : string :=
  "SELECT * FROM students WHERE roll_number=%s".

Definition sql_student_dashboard : string :=
  "
        SELECT ta.assignment_id, s.code AS subject_code, s.name AS subject_name, 
               CONCAT(t.first_name,' ',COALESCE(t.last_name,'')) AS teacher_name
        FROM students st
        JOIN teacher_assignments ta 
            ON ta.branch_id=st.branch_id AND ta.year_id=st.year_id AND ta.semester_id=st.semester_id
        JOIN subjects s ON s.subject_id=ta.subject_id
        JOIN teachers t ON t.teacher_id=ta.teacher_id
        WHERE st.student_id=%s
    ".

Definition sql_select_admin : string :=
  "SELECT * FROM admins WHERE username=%s".

Definition sql_admin_dashboard : string :=
  "
        SELECT t.teacher_id, CONCAT(t.first_name,' ',COALESCE(t.last_name,'')) AS teacher_name,
               s.subject_id, s.name AS subject_name, ts.avg_overall_rating, ts.total_feedbacks
        FROM teacher_assignments ta
        JOIN teachers t ON t.teacher_id = ta.teacher_id
        JOIN subjects s ON s.subject_id = ta.subject_id
        LEFT JOIN teacher_stats ts ON ts.teacher_id = t.teacher_id
        WHERE ta.branch_id=%s AND ta.year_id=%s AND ta.semester_id=%s
    ".

Definition sql_branches : string :=
  "SELECT branch_id AS id, name FROM branches ORDER BY name".

Definition sql_years : string :=
  "SELECT year_id AS id, year_label AS label FROM academic_years ORDER BY year_id".

Definition sql_semesters : string :=
  "SELECT semester_id AS id, semester_label AS label FROM semesters ORDER BY ordinal".

Definition proc_submit_feedback : string := "submit_feedback".
Definition proc_generate_teacher_summary : string := "generate_teacher_summary".

(** ** werkzeug.security *)

Definition werkzeug_generate_password_hash (password : value) : M string :=
  c ← ask; lift (generate_password_hash (world c) password).

Definition werkzeug_check_password_hash (pwhash password : value) : M bool :=
  c ← ask; lift (check_password_hash (world c) pwhash password).

(** ** Student routes *)

Definition not_logged_in : response :=
  with_status
    (jsonify (dict [("status", VStr "error"); ("message", VStr "Not logged in")])) 401.

Definition invalid_credentials : response :=
  jsonify (dict [("status", VStr "error"); ("message", VStr "Invalid credentials")]).

Definition error_payload (e : exn) : response :=
  jsonify (dict [("status", VStr "error"); ("message", VStr (str e))]).

(** POST /student/register *)
Definition student_register : M response :=
  data ← request_json;
  name ← py_get data "name";
  email ← py_get data "email";
  password ← py_get data "password";
  roll_number ← py_get data "roll_number";
  branch_id ← py_get data "branch_id";
  year_id ← py_get data "year_id";
  semester_id ← py_get data "semester_id";
  hashed_password ← werkzeug_generate_password_hash password;
  conn ← get_db_connection;
  cur ← conn_cursor conn false;
  try_finally
    (try_except
       (cursor_execute cur sql_insert_student
          [name; email; VStr hashed_password; roll_number; branch_id; year_id; semester_id];;
        conn_commit conn;;
        mret (jsonify (dict [("status", VStr "success");
                             ("message", VStr "Student registered successfully")])))
       (λ e, mret (error_payload e)))
    (cursor_close cur;; conn_close conn).

(** POST /student/login *)
Definition student_login : M response :=
  data ← request_json;
  roll_number ← py_get data "roll_number";
  password ← py_get data "password";
  conn ← get_db_connection;
  cur ← conn_cursor conn true;
  cursor_execute cur sql_select_student [roll_number];;
  student ← cursor_fetchone cur;
  cursor_close cur;;
  conn_close conn;;
  ok ← (if truthy student
        then pwhash ← py_item student "password_hash";
             werkzeug_check_password_hash pwhash password
        else mret false);
  if ok : bool
  then sid ← py_item student "student_id";
       session_set "student_id" sid;;
       sid' ← py_item student "student_id";
       mret (jsonify (dict [("status", VStr "success");
                            ("message", VStr "Login successful");
                            ("student_id", sid')]))
  else mret invalid_credentials.

(** GET /student/dashboard *)
Definition student_dashboard : M response :=
  student_id ← session_get "student_id";
  if negb (truthy student_id)
  then mret not_logged_in
  else
    conn ← get_db_connection;
    cur ← conn_cursor conn true;
    cursor_execute cur sql_student_dashboard [student_id];;
    data ← cursor_fetchall cur;
    cursor_close cur;;
    conn_close conn;;
    mret (jsonify data).

(** POST /student/feedback/<int:assignment_id> *)
Definition student_feedback (assignment_id : Z) : M response :=
  student_id ← session_get "student_id";
  if negb (truthy student_id)
  then mret not_logged_in
  else
    data ← request_json;
    rating_knowledge ← py_get data "rating_knowledge";
    rating_communication ← py_get data "rating_communication";
    rating_punctuality ← py_get data "rating_punctuality";
    rating_overall ← py_get data "rating_overall";
    comment ← py_get data "comment";
    try_except
      (call_stored_procedure proc_submit_feedback
         [student_id; VInt assignment_id; rating_knowledge; rating_communication;
          rating_punctuality; rating_overall; comment];;
       mret (jsonify (dict [("status", VStr "success");
                            ("message", VStr "Feedback submitted successfully")])))
      (λ e, mret (error_payload e)).

(** ** Admin routes *)

(** GET / *)
Definition home : M response :=
  mret {| status := 200; body := Text "Faculty Feedback System Backend is running!" |}.

(** POST /admin/login *)
Definition admin_login : M response :=
  data ← request_json;
  username ← py_get data "username";
  password ← py_get data "password";
  conn ← get_db_connection;
  cur ← conn_cursor conn true;
  cursor_execute cur sql_select_admin [username];;
  admin ← cursor_fetchone cur;
  cursor_close cur;;
  conn_close conn;;
  ok ← (if truthy admin
        then pwhash ← py_item admin "password_hash";
             werkzeug_check_password_hash pwhash password
        else mret false);
  if ok : bool
  then aid ← py_item admin "admin_id";
       session_set "admin_id" aid;;
       mret (jsonify (dict [("status", VStr "success");
                            ("message", VStr "Login successful")]))
  else mret invalid_credentials.

(** GET /admin/dashboard *)
Definition admin_dashboard : M response :=
  branch_id ← request_args_get "branch_id";
  year_id ← request_args_get "year_id";
  semester_id ← request_args_get "semester_id";
  conn ← get_db_connection;
  cur ← conn_cursor conn true;
  cursor_execute cur sql_admin_dashboard [branch_id; year_id; semester_id];;
  data ← cursor_fetchall cur;
  cursor_close cur;;
  conn_close conn;;
  mret (jsonify data).

(** GET /admin/teacher/<int:teacher_id>/summary *)
Definition admin_teacher_summary (teacher_id : Z) : M response :=
  branch_id ← request_args_get "branch_id";
  year_id ← request_args_get "year_id";
  semester_id ← request_args_get "semester_id";
  summary ← call_stored_procedure proc_generate_teacher_summary
    [VInt teacher_id;
     if truthy branch_id then branch_id else VNone;
     if truthy year_id then year_id else VNone;
     if truthy semester_id then semester_id else VNone];
  mret (jsonify summary).

(** ** API routes for dropdown data *)

Definition connection_failed : response :=
  with_status (jsonify (dict [("error", VStr "Database connection failed")])) 500.

(** GET /api/dropdowns *)
Definition get_dropdown_data : M response :=
  conn ← get_db_connection;
  if negb (is_live conn)
  then mret connection_failed
  else
    cur ← conn_cursor conn true;
    cursor_execute cur sql_branches [];;
    branches ← cursor_fetchall cur;
    cursor_execute cur sql_years [];;
    years ← cursor_fetchall cur;
    cursor_execute cur sql_semesters [];;
    semesters ← cursor_fetchall cur;
    cursor_close cur;;
    conn_close conn;;
    mret (jsonify (dict [("branches", branches);
                         ("years", years);
                         ("semesters", semesters)])).

(** ** Routing *)

Inductive endpoint : Type :=
| StudentRegister
| StudentLogin
| StudentDashboard
| StudentFeedback
| Home
| AdminLogin
| AdminDashboard
| AdminTeacherSummary
| Dropdowns.

Definition dispatch (ep : endpoint) : M response :=
  match ep with
  | StudentRegister => student_register
  | StudentLogin => student_login
  | StudentDashboard => student_dashboard
  | StudentFeedback => assignment_id ← request_view_arg; student_feedback assignment_id
  | Home => home
  | AdminLogin => admin_login
  | AdminDashboard => admin_dashboard
  | AdminTeacherSummary => teacher_id ← request_view_arg; admin_teacher_summary teacher_id
  | Dropdowns => get_dropdown_data
  end.

(** Running a computation on a request, an environment and the session the
    client's cookie carries. *)
Definition run {A} (m : M A) (r : request) (w : env) (sess : gmap string value)
  : (exn + A) * state :=
  m {| req := r; world := w |} (init sess).

Definition handle (ep : endpoint) (r : request) (w : env) (sess : gmap string value)
  : (exn + response) * state :=
  run (dispatch ep) r w sess.

(** ** Observations on the driver log *)

(** The statement texts and procedure names handed to the driver, in order. *)
Fixpoint sql_texts (l : list event) : list string :=
  match l with
  | [] => []
  | EExecute sql _ :: l' => sql :: sql_texts l'
  | ECallproc proc_name _ :: l' => proc_name :: sql_texts l'
  | _ :: l' => sql_texts l'
  end.

Definition data_access_calls (l : list event) : nat := length (sql_texts l).

(** ** Sessions across requests *)

(** One request as the server sees it: the route, the request, and what the
    outside world answers while it is being served. *)
Definition exchange : Type := endpoint * request * env.

Definition step (sess : gmap string value) (x : exchange) : gmap string value :=
  session (handle x.1.1 x.1.2 x.2 sess).2.

(** The session a client holds after a sequence of requests on a fresh cookie. *)
Definition session_after (xs : list exchange) : gmap string value :=
  foldl step ∅ xs.

(** ** The two login routes side by side *)

Inductive realm : Type := Student | Admin.





Definition login_successful (k : realm) (id : value) : response :=
  match k with
  | Student =>
      jsonify (dict [("status", VStr "success"); ("message", VStr "Login successful");
                     ("student_id", id)])
  | Admin =>
      jsonify (dict [("status", VStr "success"); ("message", VStr "Login successful")])
  end.

(** ** Which requests get as far as the data layer *)

(** The request passes everything the handler does before it asks for a
    connection: the session check on the protected routes, reading the fields
    of the JSON body, hashing the password on registration. *)
Definition reaches_data_layer (ep : endpoint) (r : request) (w : env)
    (sess : gmap string value) : Prop :=
  match ep with
  | StudentRegister =>
      ∃ d h, json r = VDict d ∧
             generate_password_hash w (default VNone (d !! "password")) = inr h
  | StudentLogin | AdminLogin => ∃ d, json r = VDict d
  | StudentDashboard => ∃ v, sess !! "student_id" = Some v ∧ truthy v = true
  | StudentFeedback =>
      (∃ v, sess !! "student_id" = Some v ∧ truthy v = true) ∧ ∃ d, json r = VDict d
  | AdminDashboard | AdminTeacherSummary | Dropdowns => True
  | Home => False
  end.


(** ** The tables behind the dropdowns *)

Module Schema.

(** Modelled from the spec: the schema is not part of the application
    source; the columns are those the three dropdown statements name
    ([branches], [academic_years], [semesters]). *)
Record branch : Type := { branch_id : Z; name : string }.
Record academic_year : Type := { year_id : Z; year_label : string }.
Record semester : Type := { semester_id : Z; semester_label : string; ordinal : Z }.

(** Modelled from the spec: a database state, each table in the order its
    rows were inserted. *)
Record database : Type := {
  branches : list branch;
  academic_years : list academic_year;
  semesters : list semester
}.

End Schema.

(** Ordering of two records by a key column. *)
Definition by_key {A K} (le : relation K) (key : A → K) : relation A :=
  λ x y, le (key x) (key y).

#[global] Instance by_key_dec {A K} (le : relation K) `{!RelDecision le} (key : A → K)
  : RelDecision (by_key le key) := λ x y, decide (le (key x) (key y)).

(** Modelled from the spec: what the database engine, which is not part of
    the application source, does with [ORDER BY]: the rows of the table
    arranged by the named column. *)
Definition order_by {A K} (le : relation K) `{!RelDecision le} (key : A → K)
    (rows : list A) : list A :=
  merge_sort (by_key le key) rows.

(** The columns each dropdown statement selects, under the aliases it gives
    them ([branch_id AS id, name], [year_id AS id, year_label AS label],
    [semester_id AS id, semester_label AS label]). *)
Definition branch_row (b : Schema.branch) : row :=
  list_to_map [("id", VInt (Schema.branch_id b)); ("name", VStr (Schema.name b))].

Definition year_row (y : Schema.academic_year) : row :=
  list_to_map [("id", VInt (Schema.year_id y)); ("label", VStr (Schema.year_label y))].

Definition semester_row (s : Schema.semester) : row :=
  list_to_map [("id", VInt (Schema.semester_id s)); ("label", VStr (Schema.semester_label s))].

(** Modelled from the spec: the engine's answers to the three dropdown
    statements on a database state; [collate] is the collation of
    [branches.name]. *)
Definition select_branches (collate : relation string) `{!RelDecision collate}
    (db : Schema.database) : list row :=
  branch_row <$> order_by collate Schema.name (Schema.branches db).

Definition select_years (db : Schema.database) : list row :=
  year_row <$> order_by Z.le Schema.year_id (Schema.academic_years db).

Definition select_semesters (db : Schema.database) : list row :=
  semester_row <$> order_by Z.le Schema.ordinal (Schema.semesters db).


Definition rows_value (rows : list row) : value := VList (VDict <$> rows).

(** The statement texts and procedure names each handler contains, in
    program order. *)
Definition statements (ep : endpoint) : list string :=
  match ep with
  | StudentRegister => [sql_insert_student]
  | StudentLogin => [sql_select_student]
  | StudentDashboard => [sql_student_dashboard]
  | StudentFeedback => [proc_submit_feedback]
  | Home => []
  | AdminLogin => [sql_select_admin]
  | AdminDashboard => [sql_admin_dashboard]
  | AdminTeacherSummary => [proc_generate_teacher_summary]
  | Dropdowns => [sql_branches; sql_years; sql_semesters]
  end.

(** ** Sample data *)

Module Sample.

(** A stand-in for the salted hash: enough to tell a right password from a
    wrong one. *)
Definition hash (password : value) : exn + string :=
  match password with
  | VStr p => inr ("toy$salt$" +:+ p)
  | _ => inl (no_attribute password "encode")
  end.

Definition check (pwhash password : value) : exn + bool :=
  match pwhash, password with
  | VStr h, VStr p => inr (String.eqb h ("toy$salt$" +:+ p))
  | VStr _, _ => inl (no_attribute password "encode")
  | _, _ => inl (no_attribute pwhash "count")
  end.

Definition student : row :=
  list_to_map [("student_id", VInt 7); ("first_name", VStr "Asha");
               ("roll_number", VStr "R100"); ("password_hash", VStr "toy$salt$pw1")].

Definition admin : row :=
  list_to_map [("admin_id", VInt 1); ("username", VStr "root");
               ("password_hash", VStr "toy$salt$s3cret")].

Definition db : Schema.database :=
  {| Schema.branches :=
       [ {| Schema.branch_id := 1; Schema.name := "Mechanical" |};
         {| Schema.branch_id := 2; Schema.name := "Civil" |};
         {| Schema.branch_id := 3; Schema.name := "Electrical" |} ];
     Schema.academic_years :=
       [ {| Schema.year_id := 3; Schema.year_label := "TE" |};
         {| Schema.year_id := 1; Schema.year_label := "FE" |};
         {| Schema.year_id := 2; Schema.year_label := "SE" |} ];
     Schema.semesters :=
       [ {| Schema.semester_id := 10; Schema.semester_label := "Sem II"; Schema.ordinal := 2 |};
         {| Schema.semester_id := 11; Schema.semester_label := "Sem I"; Schema.ordinal := 1 |} ] |}.

Definition select (sql : string) (params : list value) : exn + list row :=
  if String.eqb sql sql_select_student then
    match params with
    | [VStr "R100"] => inr [student]
    | _ => inr []
    end
  else if String.eqb sql sql_select_admin then
    match params with
    | [VStr "root"] => inr [admin]
    | _ => inr []
    end
  else if String.eqb sql sql_branches then inr (select_branches String.le db)
  else if String.eqb sql sql_years then inr (select_years db)
  else if String.eqb sql sql_semesters then inr (select_semesters db)
  else inr [].

(** A reachable, healthy database. *)
Definition campus : env :=
  {| connect := inr Connection;
     execute := select;
     callproc := λ _ _, inr [];
     commit := inr ();
     generate_password_hash := hash;
     check_password_hash := check |}.

(** The server cannot be reached. *)
Definition offline : env :=
  {| connect := inl (MySQLError 2003 "2003: Can't connect to MySQL server on 'localhost:3306' (111)");
     execute := select;
     callproc := λ _ _, inr [];
     commit := inr ();
     generate_password_hash := hash;
     check_password_hash := check |}.

Definition duplicate_entry : exn :=
  MySQLError 1062 "1062 (23000): Duplicate entry 'R100' for key 'students.roll_number'".

Definition table_missing : exn :=
  MySQLError 1146 "1146 (42S02): Table 'faculty_feedback.students' doesn't exist".

(** The connection works but every statement and procedure call is refused. *)
Definition refusing (e : exn) : env :=
  {| connect := inr Connection;
     execute := λ _ _, inl e;
     callproc := λ _ _, inl e;
     commit := inr ();
     generate_password_hash := hash;
     check_password_hash := check |}.

Definition post (fields : list (string * value)) : request :=
  {| json := dict fields; args := ∅; view_arg := 0 |}.

Definition get : request := {| json := VNone; args := ∅; view_arg := 0 |}.

Definition student_credentials (password : string) : request :=
  post [("roll_number", VStr "R100"); ("password", VStr password)].

Definition admin_credentials (password : string) : request :=
  post [("username", VStr "root"); ("password", VStr password)].

Definition feedback : request :=
  {| json := dict [("rating_knowledge", VInt 5); ("rating_communication", VInt 4);
                   ("rating_punctuality", VInt 5); ("rating_overall", VInt 5);
                   ("comment", VStr "clear lectures")];
     args := ∅;
     view_arg := 42 |}.


Definition logged_in : gmap string value := {[ "student_id" := VInt 7 ]}.

End Sample.

(** * Properties *)

(** ** Symbolic execution of handlers *)

Ltac unfold_m :=
  unfold handle, run, dispatch,
    student_register, student_login, student_dashboard, student_feedback, home,
    admin_login, admin_dashboard, admin_teacher_summary, get_dropdown_data,
    call_stored_procedure, get_db_connection, mysql_connect,
    conn_cursor, conn_commit, conn_close, cursor_close,
    cursor_execute, cursor_fetchone, cursor_fetchall,
    cursor_callproc, cursor_stored_results,
    werkzeug_generate_password_hash, werkzeug_check_password_hash,
    request_json, request_args_get, request_view_arg,
    session_get, session_set, py_get, py_item,
    set_pending, set_stored, print, emit, ask, lift, raise,
    try_finally, try_except, mbind, mret, M_bind, M_ret, init, is_live.

(** Split on every outcome still open. *)
Ltac all_outcomes := repeat (case_match; simpl in *; simplify_eq/=).



(** ** Statement texts *)

Lemma statements_prefix ep r w sess :
  sql_texts (log (handle ep r w sess).2) `prefix_of` statements ep.
Proof.
  destruct ep; unfold_m; simpl; all_outcomes;
    solve [ by eexists | apply prefix_nil ].
Qed.

(** C1. For every endpoint handler and any two requests (with whatever
    session and database answers), the i-th statement text handed to the
    driver is the same string in both runs: request data only ever travels
    in the parameter list. *)
Theorem sql_text_independent_of_request ep r1 w1 sess1 r2 w2 sess2 (i : nat) q1 q2 :
  sql_texts (log (handle ep r1 w1 sess1).2) !! i = Some q1 →
  sql_texts (log (handle ep r2 w2 sess2).2) !! i = Some q2 →
  q1 = q2.
Proof.
  intros H1 H2.
  pose proof (statements_prefix ep r1 w1 sess1) as P1.
  pose proof (statements_prefix ep r2 w2 sess2) as P2.
  eapply prefix_lookup_Some in P1; [|exact H1].
  eapply prefix_lookup_Some in P2; [|exact H2].
  congruence.
Qed.

Lemma sql_text_independent_of_request_witness :
  sql_texts (log (handle StudentLogin (Sample.student_credentials "pw1")
                    Sample.campus ∅).2) !! 0%nat = Some sql_select_student ∧
  sql_texts (log (handle StudentLogin
                    (Sample.post [("roll_number", VStr "x' OR '1'='1"); ("password", VNone)])
                    (Sample.refusing Sample.table_missing) Sample.logged_in).2) !! 0%nat
    = Some sql_select_student ∧
  sql_select_student = sql_select_student.
Proof.
  split; [reflexivity|]. split; [reflexivity|].
  apply (sql_text_independent_of_request StudentLogin
           (Sample.student_credentials "pw1") Sample.campus ∅
           (Sample.post [("roll_number", VStr "x' OR '1'='1"); ("password", VNone)])
           (Sample.refusing Sample.table_missing) Sample.logged_in 0%nat);
    reflexivity.
Defined.

(** ** Session gate *)

(** C2. On the two protected routes, a request whose session has no
    [student_id] gets the 401 "Not logged in" response, and the driver log
    stays empty: no connection, no statement, no procedure call. *)
Theorem protected_requires_login ep r w sess :
  ep = StudentDashboard ∨ ep = StudentFeedback →
  sess !! "student_id" = None →
  handle ep r w sess = (inr not_logged_in, init sess) ∧
  status not_logged_in = 401 ∧
  log (handle ep r w sess).2 = [] ∧
  session (handle ep r w sess).2 = sess.
Proof.
  intros [-> | ->] Hs; unfold_m; simpl; rewrite Hs; simpl; done.
Qed.

Lemma protected_requires_login_witness :
  handle StudentFeedback Sample.feedback Sample.campus ∅ = (inr not_logged_in, init ∅) ∧
  status not_logged_in = 401 ∧
  log (handle StudentFeedback Sample.feedback Sample.campus ∅).2 = [] ∧
  session (handle StudentFeedback Sample.feedback Sample.campus ∅).2 = ∅.
Proof.
  apply (protected_requires_login StudentFeedback Sample.feedback Sample.campus ∅).
  - right; reflexivity.
  - reflexivity.
Defined.

(** ** Login *)



Example admin_login_establishes_session :
  (handle AdminLogin (Sample.admin_credentials "s3cret") Sample.campus ∅).1
    = inr (login_successful Admin (VInt 1)) ∧
  session (handle AdminLogin (Sample.admin_credentials "s3cret") Sample.campus ∅).2
    = {[ "admin_id" := VInt 1 ]}.
Proof. split; reflexivity. Qed.



(** ** Sessions over several requests *)

(** Serving a request changes the session by at most one key: the student
    login may bind [student_id], the admin login may bind [admin_id], and
    nothing is ever removed. *)
Lemma step_session ep r w sess :
  let sess' := session (handle ep r w sess).2 in
  sess' = sess ∨
  (ep = StudentLogin ∧ ∃ v, sess' = <["student_id" := v]> sess) ∨
  (ep = AdminLogin ∧ ∃ v, sess' = <["admin_id" := v]> sess).
Proof.
  destruct ep; unfold_m; simpl; all_outcomes; eauto 6.
Qed.

(** C5, as the code has it. Each request binds at most one identity key
    (student login: [student_id]; admin login: [admin_id]) and leaves every
    other key of the session, the other identity included, as it was. *)
Theorem login_binds_one_identity ep r w sess :
  let sess' := session (handle ep r w sess).2 in
  (sess' = sess ∨
   (ep = StudentLogin ∧ ∃ v, sess' = <["student_id" := v]> sess) ∨
   (ep = AdminLogin ∧ ∃ v, sess' = <["admin_id" := v]> sess)) ∧
  (ep ≠ AdminLogin → sess' !! "admin_id" = sess !! "admin_id") ∧
  (ep ≠ StudentLogin → sess' !! "student_id" = sess !! "student_id").
Proof.
  intros sess'. pose proof (step_session ep r w sess) as H. fold sess' in H.
  split; [exact H|].
  split; intros Hne;
    destruct H as [-> | [[-> [v ->]] | [-> [v ->]]]];
    try done; by rewrite lookup_insert_ne.
Qed.

Lemma login_binds_one_identity_witness :
  let sess : gmap string value := {[ "admin_id" := VInt 1 ]} in
  let sess' := session (handle StudentLogin (Sample.student_credentials "pw1")
                          Sample.campus sess).2 in
  sess' = <["student_id" := VInt 7]> sess ∧ sess' !! "admin_id" = Some (VInt 1).
Proof.
  intros sess sess'.
  destruct (login_binds_one_identity StudentLogin (Sample.student_credentials "pw1")
              Sample.campus sess) as (_ & Hadmin & _).
  split; [reflexivity|].
  apply Hadmin. discriminate.
Defined.

(** C5, refuted as stated: a student login followed by an admin login on the
    same cookie leaves a session holding both identities. *)
Lemma session_holds_both_identities :
  let sess := session_after
                [ (StudentLogin, Sample.student_credentials "pw1", Sample.campus);
                  (AdminLogin, Sample.admin_credentials "s3cret", Sample.campus) ] in
  sess !! "student_id" = Some (VInt 7) ∧ sess !! "admin_id" = Some (VInt 1).
Proof. split; reflexivity. Qed.

(** ** Exceptions from the data layer *)



Example feedback_reports_exception :
  (handle StudentFeedback Sample.feedback (Sample.refusing Sample.duplicate_entry)
     Sample.logged_in).1 = inr (error_payload Sample.duplicate_entry).
Proof. reflexivity. Qed.


(** ** Stored-procedure calls *)



Example call_stored_procedure_returns :
  run (call_stored_procedure proc_generate_teacher_summary [VInt 3; VNone; VNone; VNone])
      Sample.get Sample.campus ∅
  = (inr VNone,
     {| session := ∅;
        log := [EConnect; ECursor;
                ECallproc proc_generate_teacher_summary [VInt 3; VNone; VNone; VNone];
                ECommit; ECursorClose; EConnClose];
        pending := []; stored := [] |}).
Proof. reflexivity. Qed.

(** ** Data-access calls per request *)

Lemma data_access_calls_bound ep r w sess :
  (data_access_calls (log (handle ep r w sess).2) ≤ length (statements ep))%nat.
Proof. apply prefix_length, statements_prefix. Qed.

(** C8, as the code has it. A request that reaches the data layer on an
    established connection makes exactly one data-access call in every
    handler except the dropdown handler, which executes its three statements
    one after the other on one cursor (fewer only when one of them raises);
    no request makes more calls than its handler has statements. *)
Theorem data_access_calls_per_request ep r w sess cn :
  reaches_data_layer ep r w sess →
  connect w = inr cn →
  let n := data_access_calls (log (handle ep r w sess).2) in
  (n ≤ length (statements ep))%nat ∧
  match ep with
  | Dropdowns =>
      (1 ≤ n)%nat ∧
      (∀ bs ys ss,
         execute w sql_branches [] = inr bs →
         execute w sql_years [] = inr ys →
         execute w sql_semesters [] = inr ss →
         n = 3%nat)
  | _ => n = 1%nat
  end.
Proof.
  intros Hr Hc n. split; [apply data_access_calls_bound|].
  subst n. unfold data_access_calls.
  destruct ep; simpl in Hr.
  - destruct Hr as (d & h & Hj & Hg).
    unfold_m; simpl. rewrite Hj; simpl. rewrite Hg; simpl. rewrite Hc; simpl.
    all_outcomes; done.
  - destruct Hr as (d & Hj).
    unfold_m; simpl. rewrite Hj; simpl. rewrite Hc; simpl. all_outcomes; done.
  - destruct Hr as (v & Hs & Ht).
    unfold_m; simpl. rewrite Hs; simpl. rewrite Ht; simpl. rewrite Hc; simpl.
    all_outcomes; done.
  - destruct Hr as ((v & Hs & Ht) & d & Hj).
    unfold_m; simpl. rewrite Hs; simpl. rewrite Ht; simpl. rewrite Hj; simpl.
    rewrite Hc; simpl. all_outcomes; done.
  - done.
  - destruct Hr as (d & Hj).
    unfold_m; simpl. rewrite Hj; simpl. rewrite Hc; simpl. all_outcomes; done.
  - unfold_m; simpl. rewrite Hc; simpl. all_outcomes; done.
  - unfold_m; simpl. rewrite Hc; simpl. all_outcomes; done.
  - unfold_m; simpl. rewrite Hc; simpl. split.
    + all_outcomes; simpl; lia.
    + intros bs ys ss Hb Hy Hs. rewrite Hb; simpl. rewrite Hy; simpl.
      rewrite Hs; simpl. done.
Qed.

Lemma data_access_calls_per_request_witness :
  (data_access_calls (log (handle StudentDashboard Sample.get Sample.campus
                             Sample.logged_in).2) ≤ 1)%nat ∧
  data_access_calls (log (handle StudentDashboard Sample.get Sample.campus
                            Sample.logged_in).2) = 1%nat.
Proof.
  apply (data_access_calls_per_request StudentDashboard Sample.get Sample.campus
           Sample.logged_in Connection).
  - exists (VInt 7). split; reflexivity.
  - reflexivity.
Defined.

(** C8, refuted as stated: one request for the dropdowns executes three
    statements. *)
Lemma dropdowns_execute_three_statements :
  sql_texts (log (handle Dropdowns Sample.get Sample.campus ∅).2)
    = [sql_branches; sql_years; sql_semesters] ∧
  data_access_calls (log (handle Dropdowns Sample.get Sample.campus ∅).2) ≠ 1%nat.
Proof. split; [reflexivity | vm_compute; discriminate]. Qed.

(** ** Dropdown ordering *)

#[global] Instance by_key_total {A K} (le : relation K) `{!Total le} (key : A → K)
  : Total (by_key le key).
Proof. intros x y. apply (total le). Qed.

#[global] Instance by_key_transitive {A K} (le : relation K) `{!Transitive le}
    (key : A → K) : Transitive (by_key le key).
Proof. intros x y z. unfold by_key. apply transitivity. Qed.




Example dropdowns_on_sample :
  (handle Dropdowns Sample.get Sample.campus ∅).1
  = inr (jsonify (dict
      [("branches", rows_value
          [ list_to_map [("id", VInt 2); ("name", VStr "Civil")];
            list_to_map [("id", VInt 3); ("name", VStr "Electrical")];
            list_to_map [("id", VInt 1); ("name", VStr "Mechanical")] ]);
       ("years", rows_value
          [ list_to_map [("id", VInt 1); ("label", VStr "FE")];
            list_to_map [("id", VInt 2); ("label", VStr "SE")];
            list_to_map [("id", VInt 3); ("label", VStr "TE")] ]);
       ("semesters", rows_value
          [ list_to_map [("id", VInt 11); ("label", VStr "Sem I")];
            list_to_map [("id", VInt 10); ("label", VStr "Sem II")] ])])).
Proof. vm_compute. reflexivity. Qed.

(** ** Connection failure *)

(** C10, as the code has it. When the driver cannot connect,
    [get_db_connection] returns [None]; of the requests that reach the data
    layer, the dropdown handler answers 500 "Database connection failed",
    the feedback handler catches the [AttributeError] raised on [None] and
    answers with the error payload, and every other handler lets that
    [AttributeError] escape. No statement is executed. *)
Theorem connection_failure ep r w sess errno text :
  connect w = inl (MySQLError errno text) →
  reaches_data_layer ep r w sess →
  (run get_db_connection r w sess).1 = inr None ∧
  (handle ep r w sess).1
    = match ep with
      | Dropdowns => inr connection_failed
      | StudentFeedback => inr (error_payload (no_attribute VNone "cursor"))
      | _ => inl (no_attribute VNone "cursor")
      end ∧
  status connection_failed = 500 ∧
  data_access_calls (log (handle ep r w sess).2) = 0%nat.
Proof.
  intros Hc Hr. split.
  { unfold_m; simpl. rewrite Hc; simpl. all_outcomes; done. }
  unfold data_access_calls.
  destruct ep; simpl in Hr.
  - destruct Hr as (d & h & Hj & Hg).
    unfold_m; simpl. rewrite Hj; simpl. rewrite Hg; simpl. rewrite Hc; simpl.
    all_outcomes; done.
  - destruct Hr as (d & Hj).
    unfold_m; simpl. rewrite Hj; simpl. rewrite Hc; simpl. all_outcomes; done.
  - destruct Hr as (v & Hs & Ht).
    unfold_m; simpl. rewrite Hs; simpl. rewrite Ht; simpl. rewrite Hc; simpl.
    all_outcomes; done.
  - destruct Hr as ((v & Hs & Ht) & d & Hj).
    unfold_m; simpl. rewrite Hs; simpl. rewrite Ht; simpl. rewrite Hj; simpl.
    rewrite Hc; simpl. all_outcomes; done.
  - done.
  - destruct Hr as (d & Hj).
    unfold_m; simpl. rewrite Hj; simpl. rewrite Hc; simpl. all_outcomes; done.
  - unfold_m; simpl. rewrite Hc; simpl. all_outcomes; done.
  - unfold_m; simpl. rewrite Hc; simpl. all_outcomes; done.
  - unfold_m; simpl. rewrite Hc; simpl. all_outcomes; done.
Qed.

Lemma connection_failure_witness :
  (run get_db_connection (Sample.student_credentials "pw1") Sample.offline ∅).1
    = inr None ∧
  (handle StudentLogin (Sample.student_credentials "pw1") Sample.offline ∅).1
    = inl (AttributeError "'NoneType' object has no attribute 'cursor'") ∧
  status connection_failed = 500 ∧
  data_access_calls
    (log (handle StudentLogin (Sample.student_credentials "pw1") Sample.offline ∅).2)
    = 0%nat.
Proof.
  apply (connection_failure StudentLogin (Sample.student_credentials "pw1")
           Sample.offline ∅ 2003
           "2003: Can't connect to MySQL server on 'localhost:3306' (111)").
  - reflexivity.
  - eexists; reflexivity.
Defined.

Example dropdowns_offline :
  (handle Dropdowns Sample.get Sample.offline ∅).1 = inr connection_failed.
Proof. reflexivity. Qed.

(** C10, refuted as stated: with the database unreachable, the feedback
    handler does not raise; its try/except turns the [AttributeError] into a
    response. *)
Lemma feedback_offline_returns_payload :
  (handle StudentFeedback Sample.feedback Sample.offline Sample.logged_in).1
  = inr (jsonify (dict [("status", VStr "error");
                        ("message", VStr "'NoneType' object has no attribute 'cursor'")])).
Proof. reflexivity. Qed.
